(** * sagemaker.ipynb: a verification model of the notebook

    The repository is one Jupyter notebook, [sagemaker.ipynb].  Its six code
    cells import the SageMaker and MXNet SDKs, build a session, fetch MNIST,
    upload it, build an [MXNet] estimator, fit it and deploy it.

    The notebook is embedded as a monadic program over a kernel state (the
    global namespace shared by the cells, and a log of what the kernel did).
    Everything the SDK does is outside the repository: it is an arbitrary
    oracle [sdk] that answers every import and every call with a value or
    with an exception, and that may look at the whole history. *)

From Stdlib Require Import QArith.
From stdpp Require Import gmap strings list fin_maps.

Open Scope string_scope.
Open Scope list_scope.

Local Set Warnings "-register-all".

(** ** Python values *)

(** The values the notebook handles.  Literals are ints, floats, strings and
    booleans; [VDict] is a dict with string keys in insertion order;
    [VModule] is an imported module, [VAttr o n] the attribute [o.n] (a class
    or function of a module, or a bound method of an object); [VObj] is an
    opaque object handed out by the SDK. *)
Inductive val : Type :=
| VNone
| VBool (b : bool)
| VInt (n : Z)
| VFloat (q : Q)
| VStr (s : string)
| VDict (items : list (string * val))
| VModule (name : string)
| VAttr (owner : val) (name : string)
| VObj (id : N).

(** An exception: its class name and its message. *)
Record exn : Type := PyExc { exc_type : string; exc_msg : string }.

Inductive result (A : Type) : Type :=
| Ok (a : A)
| Raise (e : exn).
Arguments Ok {A} a.
Arguments Raise {A} e.

(** ** What the kernel asks of the outside world *)

Inductive op : Type :=
| Import (module : string)
| ImportFrom (module name : string)
| Call (callee : val) (args : list val) (kwargs : list (string * val)).

(** The log: which cell was started, and every operation with its answer. *)
Inductive entry : Type :=
| CellStart (index : nat)
| Ev (o : op) (r : result val).

(** The kernel: [globals] holds the names the code of the cells binds and
    reads.  The names the IPython kernel keeps for itself in the same
    namespace, its input and output history ([In], [Out], [_], [_2], [_i],
    [_i3], ...), are not followed: the notebook's code reads none of them. *)
Record kernel : Type := Kernel {
  globals : gmap string val;
  log : list entry
}.

(** A kernel in which no cell has run. *)
Definition fresh_kernel : kernel := Kernel ∅ [].

(** ** The kernel monad: state and exceptions *)

Definition Py (A : Type) : Type := kernel -> result A * kernel.

Definition ret {A} (a : A) : Py A := fun k => (Ok a, k).

Definition raise {A} (e : exn) : Py A := fun k => (Raise e, k).

Definition bind {A B} (c : Py A) (f : A -> Py B) : Py B :=
  fun k =>
    match c k with
    | (Ok a, k') => f a k'
    | (Raise e, k') => (Raise e, k')
    end.

Declare Scope py_scope.
Delimit Scope py_scope with py.
Notation "x <- c ;; f" := (bind c (fun x => f))
  (at level 90, c at next level, right associativity) : py_scope.
Notation "c ;;; f" := (bind c (fun _ => f))
  (at level 90, right associativity) : py_scope.
Open Scope py_scope.

(** Reading a global name that is not bound raises [NameError]. *)
Definition NameError (x : string) : exn :=
  PyExc "NameError" ("name '" ++ x ++ "' is not defined").

Definition load (x : string) : Py val :=
  fun k =>
    match globals k !! x with
    | Some v => (Ok v, k)
    | None => raise (NameError x) k
    end.

Definition store (x : string) (v : val) : Py unit :=
  fun k => (Ok tt, Kernel (<[x := v]> (globals k)) (log k)).

(** Starting cell [i].  (The kernel also files the cell's source under its
    history names; see [kernel].) *)
Definition begin_cell (i : nat) : Py unit :=
  fun k => (Ok tt, Kernel (globals k) (log k ++ [CellStart i])).

(** [d[key] = v] on a dict under construction: a key already present keeps
    its position and takes the new value. *)
Fixpoint dict_set (items : list (string * val)) (key : string) (v : val)
  : list (string * val) :=
  match items with
  | [] => [(key, v)]
  | (k', v') :: rest =>
      if String.eqb k' key then (k', v) :: rest
      else (k', v') :: dict_set rest key v
  end.

(** Positional arguments, keyword arguments and dict displays are evaluated
    left to right. *)
Fixpoint eval_args (es : list (Py val)) : Py (list val) :=
  match es with
  | [] => ret []
  | e :: es' => v <- e ;; vs <- eval_args es' ;; ret (v :: vs)
  end.

Fixpoint eval_kwargs (es : list (string * Py val)) : Py (list (string * val)) :=
  match es with
  | [] => ret []
  | (n, e) :: es' => v <- e ;; vs <- eval_kwargs es' ;; ret ((n, v) :: vs)
  end.

Fixpoint eval_dict (acc : list (string * val)) (es : list (string * Py val))
  : Py val :=
  match es with
  | [] => ret (VDict acc)
  | (n, e) :: es' => v <- e ;; eval_dict (dict_set acc n v) es'
  end.

Definition str (s : string) : Py val := ret (VStr s).
Definition int (n : Z) : Py val := ret (VInt n).
Definition float (q : Q) : Py val := ret (VFloat q).
Definition bool_ (b : bool) : Py val := ret (VBool b).
Definition dict_ (es : list (string * Py val)) : Py val := eval_dict [] es.

(** [e.n].  The attribute is named, not fetched: whether the object has it
    is the SDK's business, and a fetch that fails ([AttributeError]) shows
    as the call of the attribute raising.  Every attribute the notebook
    names is called at once, after arguments that are literals or names, so
    the log of calls is the same; what is lost is that the fetch comes
    before the arguments are read. *)
Definition attr (e : Py val) (n : string) : Py val :=
  v <- e ;; ret (VAttr v n).

(** ** Notebooks *)

(** A notebook is a list of cells; only code cells run. *)
Inductive cell : Type :=
| Markdown (source : string)
| Code (body : Py unit).

(** Running the cells from index [i] on, top to bottom: a markdown cell is
    skipped, a code cell is started and run, and an exception ends the run. *)
Fixpoint run_cells (i : nat) (cs : list cell) : Py unit :=
  match cs with
  | [] => ret tt
  | Markdown _ :: cs' => run_cells (S i) cs'
  | Code body :: cs' => begin_cell i ;;; body ;;; run_cells (S i) cs'
  end.

Section Notebook.

(** The SDK and everything behind it: given the history so far, the answer
    to an operation. *)
Variable sdk : list entry -> op -> result val.

Definition perform (o : op) : Py val :=
  fun k =>
    match sdk (log k) o with
    | Ok v => (Ok v, Kernel (globals k) (log k ++ [Ev o (Ok v)]))
    | Raise e => (Raise e, Kernel (globals k) (log k ++ [Ev o (Raise e)]))
    end.

(** [import m]: may raise; binds [m] to the module, named by what it is. *)
Definition import_ (m : string) : Py unit :=
  perform (Import m) ;;; store m (VModule m).

(** [from m import n]: may raise; binds [n] to the attribute [n] of [m]. *)
Definition from_import (m n : string) : Py unit :=
  perform (ImportFrom m n) ;;; store n (VAttr (VModule m) n).

(** [f(args, kw=...)]: callee first, then the arguments, then the call. *)
Definition call (f : Py val) (args : list (Py val))
    (kwargs : list (string * Py val)) : Py val :=
  c <- f ;; a <- eval_args args ;; kw <- eval_kwargs kwargs ;;
  perform (Call c a kw).

(** [x = e], and the expression statement [e].  The code of the cell does
    nothing with the value of [e]; when [e] ends a cell the kernel displays
    the value and files it under its history names (see [kernel]). *)
Definition assign (x : string) (e : Py val) : Py unit :=
  v <- e ;; store x v.

Definition expr_stmt (e : Py val) : Py unit :=
  e ;;; ret tt.

(** *** The cells of sagemaker.ipynb, in document order *)

Definition cell0 : Py unit :=
  import_ "os" ;;;
  import_ "boto3" ;;;
  import_ "sagemaker" ;;;
  from_import "sagemaker.mxnet" "MXNet" ;;;
  from_import "sagemaker" "get_execution_role" ;;;
  from_import "mxnet" "gluon" ;;;
  assign "sagemaker_session" (call (attr (load "sagemaker") "Session") [] []) ;;;
  assign "role" (call (load "get_execution_role") [] []).

Definition cell2 : Py unit :=
  expr_stmt (call (attr (attr (attr (load "gluon") "data") "vision") "MNIST")
               [str "./data/train"] [("train", bool_ true)]) ;;;
  expr_stmt (call (attr (attr (attr (load "gluon") "data") "vision") "MNIST")
               [str "./data/test"] [("train", bool_ false)]).

Definition cell3 : Py unit :=
  assign "inputs"
    (call (attr (load "sagemaker_session") "upload_data") []
       [("path", str "data"); ("key_prefix", str "data/DEMO-mnist")]).

Definition cell5 : Py unit :=
  assign "model"
    (call (load "MXNet") [str "entry.py"]
       [("role", load "role");
        ("train_instance_count", int 1);
        ("train_instance_type", str "ml.c4.xlarge");
        ("hyperparameters",
          dict_ [("batch_size", int 100);
                 ("epochs", int 5);
                 ("learning_rate", float 0.1);
                 ("momentum", float 0.9);
                 ("log_interval", int 100)])]).

Definition cell7 : Py unit :=
  expr_stmt (call (attr (load "model") "fit") [load "inputs"] []).

Definition cell9 : Py unit :=
  expr_stmt (call (attr (load "model") "deploy") []
               [("initial_instance_count", int 1);
                ("instance_type", str "ml.m4.xlarge")]).

Definition notebook : list cell :=
  [ Code cell0;
    Markdown "# Dataset";
    Code cell2;
    Code cell3;
    Markdown "# Define model";
    Code cell5;
    Markdown "# Train";
    Code cell7;
    Markdown "# Deploy";
    Code cell9 ].

(** A run of the notebook: all cells, on a fresh kernel. *)
Definition run_all : result unit * kernel := run_cells 0 notebook fresh_kernel.

Definition outcome : result unit := fst run_all.
Definition trace : list entry := log (snd run_all).
Definition namespace : gmap string val := globals (snd run_all).

End Notebook.

(** ** Reading a log *)

(** One call, as the log shows it. *)
Record invocation : Type := Invocation {
  inv_callee : val;
  inv_args : list val;
  inv_kwargs : list (string * val);
  inv_result : result val
}.

Fixpoint ops (l : list entry) : list op :=
  match l with
  | [] => []
  | CellStart _ :: l' => ops l'
  | Ev o _ :: l' => o :: ops l'
  end.

Fixpoint calls (l : list entry) : list invocation :=
  match l with
  | [] => []
  | Ev (Call c a kw) r :: l' => Invocation c a kw r :: calls l'
  | _ :: l' => calls l'
  end.

Fixpoint started (l : list entry) : list nat :=
  match l with
  | [] => []
  | CellStart i :: l' => i :: started l'
  | Ev _ _ :: l' => started l'
  end.

(** The name a callee was reached by: [Session] for [sagemaker.Session],
    [fit] for [model.fit]. *)
Definition callee_name (c : val) : string :=
  match c with
  | VAttr _ n => n
  | VModule n => n
  | _ => ""
  end.

Definition call_names (l : list entry) : list string :=
  map (fun c => callee_name (inv_callee c)) (calls l).

Fixpoint calls_to (name : string) (l : list entry) : list invocation :=
  match l with
  | [] => []
  | Ev (Call c a kw) r :: l' =>
      if String.eqb (callee_name c) name
      then Invocation c a kw r :: calls_to name l'
      else calls_to name l'
  | _ :: l' => calls_to name l'
  end.

(** The value a call passes under keyword [name]. *)
Fixpoint kwarg (name : string) (kw : list (string * val)) : option val :=
  match kw with
  | [] => None
  | (n, v) :: kw' => if String.eqb n name then Some v else kwarg name kw'
  end.

Definition is_scalar (v : val) : bool :=
  match v with
  | VInt _ | VFloat _ => true
  | _ => false
  end.

(** The log agrees with the oracle: every answer in it is the oracle's
    answer to that operation after the entries before it. *)
Fixpoint faithful (sdk : list entry -> op -> result val)
    (before l : list entry) : Prop :=
  match l with
  | [] => True
  | CellStart i :: l' => faithful sdk (before ++ [CellStart i]) l'
  | Ev o r :: l' => sdk before o = r /\ faithful sdk (before ++ [Ev o r]) l'
  end.

(** ** The script of a run *)

(** What the outside world answered, operation by operation, in a run
    where nothing raised. *)
Record answers : Type := Answers {
  a_os : val;
  a_boto3 : val;
  a_sagemaker : val;
  a_MXNet : val;
  a_get_execution_role : val;
  a_gluon : val;
  a_session : val;
  a_role : val;
  a_train : val;
  a_test : val;
  a_inputs : val;
  a_model : val;
  a_fitted : val;
  a_endpoint : val
}.

Definition MNIST_class : val :=
  VAttr (VAttr (VAttr (VAttr (VModule "mxnet") "gluon") "data") "vision") "MNIST".

Definition hyperparameters : val :=
  VDict [("batch_size", VInt 100);
         ("epochs", VInt 5);
         ("learning_rate", VFloat 0.1);
         ("momentum", VFloat 0.9);
         ("log_interval", VInt 100)].

Definition script (a : answers) : list entry :=
  [ CellStart 0;
    Ev (Import "os") (Ok (a_os a));
    Ev (Import "boto3") (Ok (a_boto3 a));
    Ev (Import "sagemaker") (Ok (a_sagemaker a));
    Ev (ImportFrom "sagemaker.mxnet" "MXNet") (Ok (a_MXNet a));
    Ev (ImportFrom "sagemaker" "get_execution_role") (Ok (a_get_execution_role a));
    Ev (ImportFrom "mxnet" "gluon") (Ok (a_gluon a));
    Ev (Call (VAttr (VModule "sagemaker") "Session") [] []) (Ok (a_session a));
    Ev (Call (VAttr (VModule "sagemaker") "get_execution_role") [] [])
       (Ok (a_role a));
    CellStart 2;
    Ev (Call MNIST_class [VStr "./data/train"] [("train", VBool true)])
       (Ok (a_train a));
    Ev (Call MNIST_class [VStr "./data/test"] [("train", VBool false)])
       (Ok (a_test a));
    CellStart 3;
    Ev (Call (VAttr (a_session a) "upload_data") []
          [("path", VStr "data"); ("key_prefix", VStr "data/DEMO-mnist")])
       (Ok (a_inputs a));
    CellStart 5;
    Ev (Call (VAttr (VModule "sagemaker.mxnet") "MXNet") [VStr "entry.py"]
          [("role", a_role a);
           ("train_instance_count", VInt 1);
           ("train_instance_type", VStr "ml.c4.xlarge");
           ("hyperparameters", hyperparameters)])
       (Ok (a_model a));
    CellStart 7;
    Ev (Call (VAttr (a_model a) "fit") [a_inputs a] []) (Ok (a_fitted a));
    CellStart 9;
    Ev (Call (VAttr (a_model a) "deploy") []
          [("initial_instance_count", VInt 1);
           ("instance_type", VStr "ml.m4.xlarge")])
       (Ok (a_endpoint a)) ].

(** The script cut at entry [n], an operation, which raised [e] instead. *)
Definition fail_at (n : nat) (e : exn) (l : list entry) : option (list entry) :=
  match l !! n with
  | Some (Ev o _) => Some (take n l ++ [Ev o (Raise e)])
  | _ => None
  end.

Inductive run_of (a : answers) : result unit -> list entry -> Prop :=
| run_completes : run_of a (Ok tt) (script a)
| run_fails n e l : fail_at n e (script a) = Some l -> run_of a (Raise e) l.

(** ** Two oracles to run the notebook against *)

(** Every operation succeeds and returns a fresh object. *)
Definition sdk_ok : list entry -> op -> result val :=
  fun l _ => Ok (VObj (N.of_nat (length l))).

(** As [sdk_ok], but the operation asked after [n] log entries raises. *)
Definition sdk_fail (n : nat) (e : exn) : list entry -> op -> result val :=
  fun l o => if Nat.eqb (length l) n then Raise e else sdk_ok l o.

Definition quota : exn := PyExc "ClientError" "ResourceLimitExceeded".

(** The upload as [sdk_ok] sees it: the session is object 7, the uploaded
    location object 13. *)
Definition upload_op : op :=
  Call (VAttr (VObj 7) "upload_data") []
    [("path", VStr "data"); ("key_prefix", VStr "data/DEMO-mnist")].

Definition upload_ok : invocation :=
  Invocation (VAttr (VObj 7) "upload_data") []
    [("path", VStr "data"); ("key_prefix", VStr "data/DEMO-mnist")]
    (Ok (VObj 13)).

(** ** The vocabulary of the claims *)

Definition hyperparameter_keys : list string :=
  ["batch_size"; "epochs"; "learning_rate"; "momentum"; "log_interval"].

(** The SDK calls of the notebook, in the order of the flow: session and
    execution role, dataset fetch (both splits), upload, estimator, fit,
    deploy. *)
Definition pipeline : list string :=
  ["Session"; "get_execution_role"; "MNIST"; "MNIST";
   "upload_data"; "MXNet"; "fit"; "deploy"].

Definition code_cells : list nat := [0; 2; 3; 5; 7; 9].

(** Everything the notebook calls, by name. *)
Definition all_call_names : list string :=
  ["Session"; "get_execution_role"; "MNIST"; "upload_data"; "MXNet"; "fit";
   "deploy"].

(** Where in the notebook an operation is written: the module of an import,
    the imported name, the name of the callee. *)
Definition site (o : op) : string :=
  match o with
  | Import m => m
  | ImportFrom _ n => n
  | Call c _ _ => callee_name c
  end.

Definition sites : list string :=
  ["os"; "boto3"; "sagemaker"; "MXNet"; "get_execution_role"; "gluon";
   "Session"; "get_execution_role"; "MNIST"; "MNIST";
   "upload_data"; "MXNet"; "fit"; "deploy"].

(** The names the notebook assigns, and the call each one is assigned from. *)
Definition assigned : list (string * string) :=
  [ ("Session", "sagemaker_session");
    ("get_execution_role", "role");
    ("upload_data", "inputs");
    ("MXNet", "model") ].

(** ** Beyond one run on a fresh kernel *)

(** All cells, top to bottom, in a kernel that has already been used. *)
Definition run_from (sdk : list entry -> op -> result val) (k : kernel)
  : result unit * kernel :=
  run_cells 0 (notebook sdk) k.

(** All cells a second time, in the kernel the first run left behind. *)
Definition rerun (sdk : list entry -> op -> result val) : result unit * kernel :=
  run_from sdk (snd (run_all sdk)).


Definition is_import (o : op) : bool :=
  match o with
  | Import _ | ImportFrom _ _ => true
  | Call _ _ _ => false
  end.

(** The names the IPython kernel keeps for itself and rebinds as cells
    run: [In], [Out] and every name that starts with an underscore. *)
Definition kernel_owned (x : string) : bool :=
  String.prefix "_" x || String.eqb x "In" || String.eqb x "Out".

(** Every name that is not the kernel's own is bound in [after] as in
    [before]. *)
Definition user_names_kept (before after : kernel) : Prop :=
  forall x, kernel_owned x = false -> globals after !! x = globals before !! x.

(** The cell ended with exception [e] before asking anything of the SDK,
    and bound no name. *)
Definition stopped_with (e : exn) (before : kernel) (r : result unit * kernel)
  : Prop :=
  fst r = Raise e /\ log (snd r) = log before /\ user_names_kept before (snd r).

(** In the log [s], every value a call is made on or given, other than a
    literal, is an answer recorded in [s] itself: [upload_data] is called
    on what [Session] returned, the estimator gets the role that
    [get_execution_role] returned, [fit] is called on what the estimator
    constructor returned with what [upload_data] returned, and [deploy] on
    what the estimator constructor returned. *)
Definition threads_own_answers (s : list entry) : Prop :=
  Forall (fun c => inv_args c = [] /\ inv_kwargs c = [])
         (calls_to "Session" s ++ calls_to "get_execution_role" s) /\
  Forall (fun u =>
            exists c session,
              calls_to "Session" s = [c] /\ inv_result c = Ok session /\
              inv_callee u = VAttr session "upload_data")
         (calls_to "upload_data" s) /\
  Forall (fun m =>
            exists g role,
              calls_to "get_execution_role" s = [g] /\ inv_result g = Ok role /\
              inv_callee m = VAttr (VModule "sagemaker.mxnet") "MXNet" /\
              inv_args m = [VStr "entry.py"] /\
              kwarg "role" (inv_kwargs m) = Some role)
         (calls_to "MXNet" s) /\
  Forall (fun f =>
            exists u m inputs model,
              calls_to "upload_data" s = [u] /\ inv_result u = Ok inputs /\
              calls_to "MXNet" s = [m] /\ inv_result m = Ok model /\
              inv_callee f = VAttr model "fit" /\
              inv_args f = [inputs] /\ inv_kwargs f = [])
         (calls_to "fit" s) /\
  Forall (fun d =>
            exists m model,
              calls_to "MXNet" s = [m] /\ inv_result m = Ok model /\
              inv_callee d = VAttr model "deploy" /\ inv_args d = [])
         (calls_to "deploy" s).

(** A kernel in which one name is bound and nothing has run. *)
Definition kernel_with (x : string) (v : val) : kernel :=
  Kernel {[ x := v ]} [].

(** A kernel in which the imports and the role of the first cell are
    there, and nothing else. *)
Definition kernel_for_estimator : kernel :=
  Kernel (<["role" := VObj 8]>
            {[ "MXNet" := VAttr (VModule "sagemaker.mxnet") "MXNet" ]}) [].

(** The last two calls as [sdk_ok] sees them, and [fit] when it is the
    operation that raises. *)
Definition deploy_ok : invocation :=
  Invocation (VAttr (VObj 15) "deploy") []
    [("initial_instance_count", VInt 1); ("instance_type", VStr "ml.m4.xlarge")]
    (Ok (VObj 19)).

Definition fit_failed : invocation :=
  Invocation (VAttr (VObj 15) "fit") [VObj 13] [] (Raise quota).

(** ** Symbolic execution *)

(** [wp c k Q]: running [c] from kernel [k] ends in a result and a kernel
    that satisfy [Q]. *)
Definition wp {A} (c : Py A) (k : kernel) (Q : result A -> kernel -> Prop) : Prop :=
  Q (fst (c k)) (snd (c k)).

(** * Proofs *)

(** ** The model on concrete oracles *)

Example run_ok : outcome sdk_ok = Ok tt /\ call_names (trace sdk_ok) = pipeline.
Proof. split; vm_compute; reflexivity. Qed.

Example run_quota :
  outcome (sdk_fail 13 quota) = Raise quota /\
  call_names (trace (sdk_fail 13 quota)) =
    ["Session"; "get_execution_role"; "MNIST"; "MNIST"; "upload_data"] /\
  started (trace (sdk_fail 13 quota)) = [0; 2; 3].
Proof. repeat split; vm_compute; reflexivity. Qed.

Example run_ok_namespace :
  namespace sdk_ok !! "inputs" = Some (VObj 13) /\
  namespace sdk_ok !! "model" = Some (VObj 15).
Proof. split; vm_compute; reflexivity. Qed.

Example dict_set_overrides :
  dict_set [("a", VInt 1); ("b", VInt 2)] "a" (VInt 3) =
  [("a", VInt 3); ("b", VInt 2)].
Proof. reflexivity. Qed.

(** ** Rules of symbolic execution *)

Lemma wp_ret {A} (a : A) k Q : Q (Ok a) k -> wp (ret a) k Q.
Proof. exact id. Qed.

Lemma wp_bind {A B} (c : Py A) (f : A -> Py B) k Q :
  wp c k (fun r k' => match r with
                      | Ok a => wp (f a) k' Q
                      | Raise e => Q (Raise e) k'
                      end) ->
  wp (bind c f) k Q.
Proof.
  unfold wp, bind. destruct (c k) as [[a|e] k']; simpl; auto.
Qed.

Lemma wp_load x k v Q :
  globals k !! x = Some v -> Q (Ok v) k -> wp (load x) k Q.
Proof. unfold wp, load. intros ->. auto. Qed.

Lemma wp_store x v k Q :
  Q (Ok tt) (Kernel (<[x := v]> (globals k)) (log k)) -> wp (store x v) k Q.
Proof. exact id. Qed.

Lemma wp_begin_cell i k Q :
  Q (Ok tt) (Kernel (globals k) (log k ++ [CellStart i])) -> wp (begin_cell i) k Q.
Proof. exact id. Qed.

Lemma wp_perform sdk o k Q :
  (forall v, sdk (log k) o = Ok v ->
     Q (Ok v) (Kernel (globals k) (log k ++ [Ev o (Ok v)]))) ->
  (forall e, sdk (log k) o = Raise e ->
     Q (Raise e) (Kernel (globals k) (log k ++ [Ev o (Raise e)]))) ->
  wp (perform sdk o) k Q.
Proof.
  unfold wp, perform. intros H1 H2.
  destruct (sdk (log k) o) as [v|e]; simpl; auto.
Qed.

Lemma wp_run_all sdk (Q : result unit -> kernel -> Prop) :
  wp (run_cells 0 (notebook sdk)) fresh_kernel Q ->
  Q (fst (run_all sdk)) (snd (run_all sdk)).
Proof. exact id. Qed.

Ltac wp_lookup := vm_compute; reflexivity.

Ltac head_of t :=
  lazymatch t with
  | ?f _ => head_of f
  | _ => t
  end.

Ltac wp_step :=
  cbn beta iota delta [globals log app];
  lazymatch goal with
  | |- wp (bind _ _) _ _ => apply wp_bind
  | |- wp (ret _) _ _ => apply wp_ret
  | |- wp (perform _ _) _ _ => apply wp_perform; intros ? ?
  | |- wp (load _) _ _ => eapply wp_load; [wp_lookup|]
  | |- wp (store _ _) _ _ => apply wp_store
  | |- wp (begin_cell _) _ _ => apply wp_begin_cell
  | |- wp (run_cells _ _) _ _ => cbn [run_cells notebook]
  | |- wp (eval_args _) _ _ => cbn [eval_args]
  | |- wp (eval_kwargs _) _ _ => cbn [eval_kwargs]
  | |- wp (eval_dict _ _) _ _ => cbn [eval_dict]
  | |- wp ?c _ _ => let h := head_of c in unfold h
  end.


Ltac close_leaf :=
  cbn beta iota delta [globals log app];
  vm_compute;
  eexists (Answers _ _ _ _ _ _ _ _ _ _ _ _ _ _);
  first
    [ refine (run_completes _)
    | lazymatch goal with
      | |- run_of _ _ ?L =>
          let n := eval cbv in (pred (length L)) in
          refine (run_fails _ n _ _ _); reflexivity
      end ].

(** Every run follows the script, to its end or to the first exception. *)
Lemma run_shape sdk : exists a, run_of a (outcome sdk) (trace sdk).
Proof.
  unfold outcome, trace.
  apply (wp_run_all sdk (fun r k => exists a, run_of a r (log k))).
  unfold fresh_kernel.
  repeat wp_step.
  all: close_leaf.
  Unshelve. all: exact VNone.
Qed.

(** The log of a run records the oracle's own answers. *)
Lemma trace_faithful sdk : faithful sdk [] (trace sdk).
Proof.
  unfold trace.
  apply (wp_run_all sdk (fun _ k => faithful sdk [] (log k))).
  unfold fresh_kernel.
  repeat wp_step.
  all: cbn beta iota delta [globals log app faithful] in *.
  all: repeat split; assumption.
Qed.

(** At the end of a run, each assigned name is bound to what its call
    returned. *)
Lemma names_bound sdk :
  Forall (fun fx =>
            forall c v, c ∈ calls_to fx.1 (trace sdk) -> inv_result c = Ok v ->
                        namespace sdk !! fx.2 = Some v)
         assigned.
Proof.
  unfold trace, namespace.
  apply (wp_run_all sdk (fun _ k =>
    Forall (fun fx =>
              forall c v, c ∈ calls_to fx.1 (log k) -> inv_result c = Ok v ->
                          globals k !! fx.2 = Some v)
           assigned)).
  unfold fresh_kernel.
  repeat wp_step.
  all: cbn beta iota delta [globals log app].
  all: repeat apply Forall_cons_2; try apply Forall_nil_2.
  all: intros c x Hc Hx; vm_compute in Hc.
  all: first
    [ apply elem_of_nil in Hc; contradiction
    | apply list_elem_of_singleton in Hc; subst c; injection Hx as <-;
      vm_compute; reflexivity
    | apply list_elem_of_singleton in Hc; subst c; discriminate Hx ].
Qed.

(** Case analysis on a run: after [run_cases sdk] the goal is stated once
    for the completed script and once for each operation that can raise. *)
Ltac fail_cases n Hf fuel :=
  lazymatch fuel with
  | O => vm_compute in Hf; discriminate Hf
  | S ?fuel' =>
      destruct n as [|n];
      [ vm_compute in Hf; first [ discriminate Hf | injection Hf as <- ]
      | fail_cases n Hf fuel' ]
  end.

Ltac run_cases sdk :=
  let a := fresh "a" in
  let R := fresh "R" in
  let n := fresh "n" in
  let e := fresh "e" in
  let l := fresh "l" in
  let Hf := fresh "Hf" in
  destruct (run_shape sdk) as [a R];
  destruct a;
  destruct R as [|n e l Hf];
  [ unfold script; cbn [a_os a_boto3 a_sagemaker a_MXNet a_get_execution_role
                        a_gluon a_session a_role a_train a_test a_inputs
                        a_model a_fitted a_endpoint]
  | fail_cases n Hf 20 ].

(** C1. In every run, each call of the [MXNet] constructor passes as
    [hyperparameters] a dict whose keys are exactly batch_size, epochs,
    learning_rate, momentum and log_interval, each once; and a run that
    completes makes exactly one such call. *)
Theorem hyperparameters_keys sdk :
  Forall (fun c =>
            exists items,
              kwarg "hyperparameters" (inv_kwargs c) = Some (VDict items) /\
              NoDup (map fst items) /\
              forall k, k ∈ map fst items <-> k ∈ hyperparameter_keys)
         (calls_to "MXNet" (trace sdk)) /\
  (outcome sdk = Ok tt -> length (calls_to "MXNet" (trace sdk)) = 1).
Proof.
  run_cases sdk.
  all: split; [ cbn | try discriminate; reflexivity ].
  all: repeat constructor.
  all: eexists; split; [ reflexivity | split; [ | reflexivity ] ].
  all: cbn; compute_done.
Qed.

Lemma hyperparameters_keys_witness :
  outcome sdk_ok = Ok tt /\ length (calls_to "MXNet" (trace sdk_ok)) = 1.
Proof.
  split; [ vm_compute; reflexivity | ].
  apply (proj2 (hyperparameters_keys sdk_ok)). vm_compute; reflexivity.
Defined.

(** C6. In every run, each call of the [MXNet] constructor has one
    positional argument, the string "entry.py"; and a run that completes
    makes exactly one such call. *)
Theorem entry_point_is_entry_py sdk :
  Forall (fun c =>
            inv_callee c = VAttr (VModule "sagemaker.mxnet") "MXNet" /\
            head (inv_args c) = Some (VStr "entry.py") /\
            inv_args c = [VStr "entry.py"])
         (calls_to "MXNet" (trace sdk)) /\
  (outcome sdk = Ok tt -> length (calls_to "MXNet" (trace sdk)) = 1).
Proof.
  run_cases sdk.
  all: split; [ cbn | try discriminate; reflexivity ].
  all: repeat constructor.
Qed.

Lemma entry_point_is_entry_py_witness :
  outcome sdk_ok = Ok tt /\ length (calls_to "MXNet" (trace sdk_ok)) = 1.
Proof.
  split; [ vm_compute; reflexivity | ].
  apply (proj2 (entry_point_is_entry_py sdk_ok)). vm_compute; reflexivity.
Defined.

(** C8. In every run, the [hyperparameters] passed to the [MXNet]
    constructor is a dict every value of which is an int or a float; and a
    run that completes makes exactly one such call. *)
Theorem hyperparameters_are_scalars sdk :
  Forall (fun c =>
            exists items,
              kwarg "hyperparameters" (inv_kwargs c) = Some (VDict items) /\
              Forall (fun kv => is_scalar kv.2 = true) items)
         (calls_to "MXNet" (trace sdk)) /\
  (outcome sdk = Ok tt -> length (calls_to "MXNet" (trace sdk)) = 1).
Proof.
  run_cases sdk.
  all: split; [ cbn | try discriminate; reflexivity ].
  all: repeat constructor.
  all: eexists; split; [ reflexivity | repeat constructor ].
Qed.

Lemma hyperparameters_are_scalars_witness :
  outcome sdk_ok = Ok tt /\ length (calls_to "MXNet" (trace sdk_ok)) = 1.
Proof.
  split; [ vm_compute; reflexivity | ].
  apply (proj2 (hyperparameters_are_scalars sdk_ok)). vm_compute; reflexivity.
Defined.

(** C10. In every run, each call of the [MXNet] constructor asks for
    [train_instance_count=1] and [train_instance_type="ml.c4.xlarge"], each
    call of [deploy] asks for [initial_instance_count=1] and
    [instance_type='ml.m4.xlarge'], and a run that completes makes exactly
    one call of each. *)
Theorem single_instance_job_and_endpoint sdk :
  Forall (fun c =>
            kwarg "train_instance_count" (inv_kwargs c) = Some (VInt 1) /\
            kwarg "train_instance_type" (inv_kwargs c) = Some (VStr "ml.c4.xlarge"))
         (calls_to "MXNet" (trace sdk)) /\
  Forall (fun c =>
            kwarg "initial_instance_count" (inv_kwargs c) = Some (VInt 1) /\
            kwarg "instance_type" (inv_kwargs c) = Some (VStr "ml.m4.xlarge"))
         (calls_to "deploy" (trace sdk)) /\
  (outcome sdk = Ok tt ->
   length (calls_to "MXNet" (trace sdk)) = 1 /\
   length (calls_to "deploy" (trace sdk)) = 1).
Proof.
  run_cases sdk.
  all: split; [ cbn | split; [ cbn | try discriminate; split; reflexivity ] ].
  all: repeat constructor.
Qed.

Lemma single_instance_job_and_endpoint_witness :
  outcome sdk_ok = Ok tt /\
  (length (calls_to "MXNet" (trace sdk_ok)) = 1 /\
   length (calls_to "deploy" (trace sdk_ok)) = 1).
Proof.
  split; [ vm_compute; reflexivity | ].
  apply (proj2 (proj2 (single_instance_job_and_endpoint sdk_ok))).
  vm_compute; reflexivity.
Defined.

(** C7. In every run, each call of [gluon.data.vision.MNIST] is either
    [MNIST('./data/train', train=True)] or [MNIST('./data/test',
    train=False)]; a run that completes makes exactly these two calls, in
    this order; and these are the only calls that fetch a dataset: there
    are never more than two of them, and every other call of the run is a
    call of [Session], [get_execution_role], [upload_data], [MXNet], [fit]
    or [deploy]. *)
Theorem dataset_cache_paths sdk :
  Forall (fun c =>
            inv_callee c = MNIST_class /\
            ((inv_args c = [VStr "./data/train"] /\
              inv_kwargs c = [("train", VBool true)]) \/
             (inv_args c = [VStr "./data/test"] /\
              inv_kwargs c = [("train", VBool false)])))
         (calls_to "MNIST" (trace sdk)) /\
  (outcome sdk = Ok tt ->
   map (fun c => (inv_args c, inv_kwargs c)) (calls_to "MNIST" (trace sdk)) =
   [ ([VStr "./data/train"], [("train", VBool true)]);
     ([VStr "./data/test"], [("train", VBool false)]) ]) /\
  length (calls_to "MNIST" (trace sdk)) <= 2 /\
  Forall (fun c => callee_name (inv_callee c) ∈ all_call_names)
         (calls (trace sdk)) /\
  length (calls (trace sdk)) =
    length (calls_to "MNIST" (trace sdk)) +
    length (calls_to "Session" (trace sdk) ++
            calls_to "get_execution_role" (trace sdk) ++
            calls_to "upload_data" (trace sdk) ++
            calls_to "MXNet" (trace sdk) ++
            calls_to "fit" (trace sdk) ++
            calls_to "deploy" (trace sdk)).
Proof.
  run_cases sdk.
  all: split; [ cbn | split; [ try discriminate; reflexivity | ] ].
  all: try (repeat (apply Forall_cons_2; [ split; [ reflexivity | ] | ]);
            try apply Forall_nil_2;
            first [ left; split; reflexivity | right; split; reflexivity ]).
  all: split; [ cbn; lia | split; [ | reflexivity ] ].
  all: cbn [calls inv_callee callee_name MNIST_class].
  all: repeat (apply Forall_cons_2; [ compute_done | ]); apply Forall_nil_2.
Qed.

Lemma dataset_cache_paths_witness :
  outcome sdk_ok = Ok tt /\
  map (fun c => (inv_args c, inv_kwargs c)) (calls_to "MNIST" (trace sdk_ok)) =
  [ ([VStr "./data/train"], [("train", VBool true)]);
    ([VStr "./data/test"], [("train", VBool false)]) ].
Proof.
  split; [ vm_compute; reflexivity | ].
  apply (proj1 (proj2 (dataset_cache_paths sdk_ok))). vm_compute; reflexivity.
Defined.

(** C5. In every run there is at most one call of [upload_data] (exactly
    one when the run completes); it is called on the session with no
    positional argument, [path='data'] and [key_prefix='data/DEMO-mnist'];
    and what it returns is bound to the name [inputs], which is the one
    argument of every later [fit]. *)
Theorem upload_is_one_call sdk :
  length (calls_to "upload_data" (trace sdk)) <= 1 /\
  Forall (fun c =>
            inv_args c = [] /\
            inv_kwargs c =
              [("path", VStr "data"); ("key_prefix", VStr "data/DEMO-mnist")] /\
            (exists s session,
               calls_to "Session" (trace sdk) = [s] /\
               inv_result s = Ok session /\
               inv_callee c = VAttr session "upload_data"))
         (calls_to "upload_data" (trace sdk)) /\
  (forall c v,
     c ∈ calls_to "upload_data" (trace sdk) -> inv_result c = Ok v ->
     namespace sdk !! "inputs" = Some v /\
     Forall (fun f => inv_args f = [v]) (calls_to "fit" (trace sdk))) /\
  (outcome sdk = Ok tt -> length (calls_to "upload_data" (trace sdk)) = 1).
Proof.
  assert (Hb := names_bound sdk).
  apply Forall_cons_1 in Hb as [_ Hb]. apply Forall_cons_1 in Hb as [_ Hb].
  apply Forall_cons_1 in Hb as [Hb _]. cbn [fst snd] in Hb.
  revert Hb. generalize (namespace sdk). intros ns.
  run_cases sdk.
  all: intros Hb.
  all: split; [ cbn; lia | ].
  all: split; [ cbn; repeat constructor; repeat eexists | ].
  all: split; [ | try discriminate; reflexivity ].
  all: intros c x Hc Hx; split; [ exact (Hb c x Hc Hx) | ].
  all: cbn in Hc |- *.
  all: first
    [ apply elem_of_nil in Hc; contradiction
    | apply list_elem_of_singleton in Hc; subst c; cbn in Hx;
      first [ discriminate Hx | injection Hx as <-; repeat constructor ] ].
Qed.

Lemma upload_is_one_call_witness :
  (upload_ok ∈ calls_to "upload_data" (trace sdk_ok) /\
   inv_result upload_ok = Ok (VObj 13) /\
   outcome sdk_ok = Ok tt) /\
  (namespace sdk_ok !! "inputs" = Some (VObj 13) /\
   Forall (fun f => inv_args f = [VObj 13]) (calls_to "fit" (trace sdk_ok))) /\
  length (calls_to "upload_data" (trace sdk_ok)) = 1.
Proof.
  assert (Hin : upload_ok ∈ calls_to "upload_data" (trace sdk_ok))
    by (vm_compute; constructor).
  assert (Hok : outcome sdk_ok = Ok tt) by (vm_compute; reflexivity).
  destruct (upload_is_one_call sdk_ok) as (_ & _ & Hbound & Hone).
  split; [ repeat split; assumption | ].
  split; [ exact (Hbound upload_ok (VObj 13) Hin eq_refl) | exact (Hone Hok) ].
Defined.

(** C9. In every run, each call of [fit] is made on the object the [MXNet]
    constructor returned, with one argument, the value [upload_data]
    returned; each call of [deploy] is made on the object [fit] was called
    on; and a run that completes makes exactly one call of each. *)
Theorem fit_inputs_and_deployed_model sdk :
  Forall (fun f =>
            inv_kwargs f = [] /\
            exists u m inputs model,
              calls_to "upload_data" (trace sdk) = [u] /\
              inv_result u = Ok inputs /\
              calls_to "MXNet" (trace sdk) = [m] /\
              inv_result m = Ok model /\
              inv_callee f = VAttr model "fit" /\
              inv_args f = [inputs])
         (calls_to "fit" (trace sdk)) /\
  Forall (fun d =>
            exists f model,
              calls_to "fit" (trace sdk) = [f] /\
              inv_callee f = VAttr model "fit" /\
              inv_callee d = VAttr model "deploy")
         (calls_to "deploy" (trace sdk)) /\
  (outcome sdk = Ok tt ->
   call_names (trace sdk) =
     ["Session"; "get_execution_role"; "MNIST"; "MNIST";
      "upload_data"; "MXNet"; "fit"; "deploy"]).
Proof.
  run_cases sdk.
  all: split; [ cbn | split; [ cbn | try discriminate; reflexivity ] ].
  all: repeat constructor.
  all: repeat eexists.
Qed.

Lemma fit_inputs_and_deployed_model_witness :
  outcome sdk_ok = Ok tt /\
  call_names (trace sdk_ok) =
    ["Session"; "get_execution_role"; "MNIST"; "MNIST";
     "upload_data"; "MXNet"; "fit"; "deploy"].
Proof.
  split; [ vm_compute; reflexivity | ].
  apply (proj2 (proj2 (fit_inputs_and_deployed_model sdk_ok))).
  vm_compute; reflexivity.
Defined.

(** C2. In every run the SDK calls made are an initial part of: session
    construction, execution-role acquisition, dataset fetch (twice), upload,
    estimator construction, fit, deploy, in this order; the cells started
    are an initial part of the code cells in document order; and a run that
    completes makes all of the calls. *)
Theorem sdk_calls_in_order sdk :
  call_names (trace sdk) `prefix_of` pipeline /\
  started (trace sdk) `prefix_of` code_cells /\
  (outcome sdk = Ok tt ->
   call_names (trace sdk) = pipeline /\ started (trace sdk) = code_cells).
Proof.
  run_cases sdk.
  all: split; [ eexists; reflexivity | ].
  all: split; [ eexists; reflexivity | ].
  all: first [ discriminate | intros _; split; reflexivity ].
Qed.

Lemma sdk_calls_in_order_witness :
  outcome sdk_ok = Ok tt /\
  (call_names (trace sdk_ok) = pipeline /\ started (trace sdk_ok) = code_cells).
Proof.
  split; [ vm_compute; reflexivity | ].
  apply (proj2 (proj2 (sdk_calls_in_order sdk_ok))). vm_compute; reflexivity.
Defined.

Ltac not_in_list :=
  let H := fresh in
  intros H;
  repeat (apply elem_of_cons in H as [H|H]; [ discriminate H | ]);
  apply elem_of_nil in H; exact H.

Ltac lookup_cases i H fuel :=
  lazymatch fuel with
  | O => cbn in H; discriminate H
  | S ?fuel' =>
      destruct i as [|i];
      [ cbn in H; first [ discriminate H | injection H as <- <- ]
      | lookup_cases i H fuel' ]
  end.

(** C3. In every run, whatever the SDK answers, the operations performed
    are an initial part of one fixed sequence of fourteen, no operation is
    performed twice, and nothing at all follows an operation that raised:
    it is not attempted again.  Nothing is skipped either: a run in which
    no operation raised has performed all fourteen and started all six code
    cells, and so has every run that completes.  The whole log is the one
    script: the answers of the SDK decide only where the run stops and
    which values are passed on. *)
Theorem straight_line sdk :
  map site (ops (trace sdk)) `prefix_of` sites /\
  NoDup (ops (trace sdk)) /\
  (forall i o e,
     trace sdk !! i = Some (Ev o (Raise e)) ->
     length (trace sdk) = S i /\ o ∉ ops (take i (trace sdk))) /\
  (Forall (fun x => forall o e, x <> Ev o (Raise e)) (trace sdk) ->
   outcome sdk = Ok tt /\
   map site (ops (trace sdk)) = sites /\
   started (trace sdk) = code_cells) /\
  (outcome sdk = Ok tt ->
   map site (ops (trace sdk)) = sites /\ started (trace sdk) = code_cells) /\
  exists a, run_of a (outcome sdk) (trace sdk).
Proof.
  assert (Hshape := run_shape sdk). revert Hshape.
  run_cases sdk.
  all: intros Hshape.
  all: split; [ eexists; reflexivity | ].
  all: split;
    [ cbn [ops]; repeat (apply NoDup_cons_2; [ not_in_list | ]); apply NoDup_nil_2
    | ].
  all: split;
    [ intros i o x Hi; lookup_cases i Hi 20;
      (split; [ reflexivity | cbn; not_in_list ])
    | ].
  all: split; [ | split; [ | exact Hshape ] ].
  all: try (intros _; repeat split; reflexivity).
  all: try (intros Hok; discriminate Hok).
  all: intros Hnone; exfalso.
  all: repeat (apply Forall_cons_1 in Hnone as [? Hnone]).
  all: match goal with
       | H : forall o e, Ev _ (Raise _) <> _ |- _ => exact (H _ _ eq_refl)
       end.
Qed.

Lemma straight_line_witness :
  (trace (sdk_fail 13 quota) !! 13 = Some (Ev upload_op (Raise quota)) /\
   (length (trace (sdk_fail 13 quota)) = 14 /\
    upload_op ∉ ops (take 13 (trace (sdk_fail 13 quota))))) /\
  (Forall (fun x => forall o e, x <> Ev o (Raise e)) (trace sdk_ok) /\
   outcome sdk_ok = Ok tt /\
   map site (ops (trace sdk_ok)) = sites /\
   started (trace sdk_ok) = code_cells).
Proof.
  assert (Hat : trace (sdk_fail 13 quota) !! 13 = Some (Ev upload_op (Raise quota)))
    by (vm_compute; reflexivity).
  assert (Hnone : Forall (fun x => forall o e, x <> Ev o (Raise e)) (trace sdk_ok)).
  { vm_compute.
    repeat (apply Forall_cons_2; [ intros ? ?; discriminate | ]).
    apply Forall_nil_2. }
  destruct (straight_line (sdk_fail 13 quota)) as (_ & _ & Hlast & _).
  destruct (straight_line sdk_ok) as (_ & _ & _ & Hall & Hdone & _).
  split; [ split; [ exact Hat | exact (Hlast 13 upload_op quota Hat) ] | ].
  destruct (Hall Hnone) as (Hok & Hsites & Hcells).
  split; [ exact Hnone | ].
  split; [ exact Hok | exact (Hdone Hok) ].
Defined.

(** C4. In every run that ends with an exception, that exception is the
    very one the oracle raised at the last operation of the log, and each
    operation before it returned; conversely an exception raised by any
    operation is the outcome of the run, and the log ends there: no later
    operation is performed and no later cell is started. *)
Theorem exceptions_propagate sdk :
  (forall e,
     outcome sdk = Raise e ->
     exists l o,
       trace sdk = l ++ [Ev o (Raise e)] /\
       sdk l o = Raise e /\
       Forall (fun x => forall o' e', x <> Ev o' (Raise e')) l) /\
  (forall i o e,
     trace sdk !! i = Some (Ev o (Raise e)) ->
     sdk (take i (trace sdk)) o = Raise e /\
     outcome sdk = Raise e /\
     length (trace sdk) = S i).
Proof.
  assert (Hfaith := trace_faithful sdk).
  revert Hfaith.
  run_cases sdk.
  all: intros Hfaith; split.
  all: try (intros x Hx; discriminate Hx).
  all: try (intros i o x Hi; lookup_cases i Hi 20).
  all: cbn [faithful app] in Hfaith.
  all: try (split; [ cbn [take]; tauto | split; reflexivity ]).
  all: intros x Hx; injection Hx as <-.
  all: lazymatch goal with
       | |- exists l o, ?L = _ /\ _ =>
           let l := eval cbv in (removelast L) in exists l
       end.
  all: eexists; split; [ reflexivity | ].
  all: split; [ tauto | ].
  all: repeat (apply Forall_cons_2; [ intros ? ?; discriminate | ]).
  all: apply Forall_nil_2.
Qed.

Lemma exceptions_propagate_witness :
  (outcome (sdk_fail 13 quota) = Raise quota /\
   trace (sdk_fail 13 quota) !! 13 = Some (Ev upload_op (Raise quota))) /\
  (exists l o,
     trace (sdk_fail 13 quota) = l ++ [Ev o (Raise quota)] /\
     sdk_fail 13 quota l o = Raise quota /\
     Forall (fun x => forall o' e', x <> Ev o' (Raise e')) l) /\
  (sdk_fail 13 quota (take 13 (trace (sdk_fail 13 quota))) upload_op = Raise quota /\
   outcome (sdk_fail 13 quota) = Raise quota /\
   length (trace (sdk_fail 13 quota)) = 14).
Proof.
  assert (Hout : outcome (sdk_fail 13 quota) = Raise quota)
    by (vm_compute; reflexivity).
  assert (Hat : trace (sdk_fail 13 quota) !! 13 = Some (Ev upload_op (Raise quota)))
    by (vm_compute; reflexivity).
  destruct (exceptions_propagate (sdk_fail 13 quota)) as [Hlast Hany].
  split; [ split; assumption | ].
  split; [ exact (Hlast quota Hout) | exact (Hany 13 upload_op quota Hat) ].
Defined.

(** * Further properties of the notebook *)

Ltac wp_lookup_insert :=
  cbn [globals];
  repeat (rewrite lookup_insert_ne by discriminate); apply lookup_insert_eq.

Ltac wp_step_from :=
  cbn beta iota delta [globals log];
  lazymatch goal with
  | |- wp (bind _ _) _ _ => apply wp_bind
  | |- wp (ret _) _ _ => apply wp_ret
  | |- wp (perform _ _) _ _ => apply wp_perform; intros ? ?
  | |- wp (load _) _ _ => eapply wp_load; [wp_lookup_insert|]
  | |- wp (store _ _) _ _ => apply wp_store
  | |- wp (begin_cell _) _ _ => apply wp_begin_cell
  | |- wp (run_cells _ _) _ _ => cbn [run_cells notebook]
  | |- wp (eval_args _) _ _ => cbn [eval_args]
  | |- wp (eval_kwargs _) _ _ => cbn [eval_kwargs]
  | |- wp (eval_dict _ _) _ _ => cbn [eval_dict]
  | |- wp ?c _ _ => let h := head_of c in unfold h
  end.

(** X1. The notebook reads no name it has not bound itself: run in a
    kernel with any namespace and any history, it appends to the log the
    same script as on a fresh kernel, complete or cut at the first
    exception. *)
Theorem notebook_is_self_contained sdk k :
  exists a s,
    run_of a (fst (run_from sdk k)) s /\
    log (snd (run_from sdk k)) = log k ++ s.
Proof.
  destruct k as [g l0].
  change (wp (run_cells 0 (notebook sdk)) (Kernel g l0)
            (fun r k' => exists a s, run_of a r s /\ log k' = l0 ++ s)).
  repeat wp_step_from.
  all: cbn beta iota delta [globals log].
  all: rewrite <- ?app_assoc; cbn [app].
  all: refine (ex_intro _ (Answers _ _ _ _ _ _ _ _ _ _ _ _ _ _)
                 (ex_intro _ _ (conj _ eq_refl))).
  all: first
    [ refine (run_completes _)
    | lazymatch goal with
      | |- run_of _ _ ?L =>
          let n := eval cbv in (pred (length L)) in
          refine (run_fails _ n _ _ _); reflexivity
      end ].
  Unshelve. all: exact VNone.
Qed.

Lemma calls_app l1 l2 : calls (l1 ++ l2) = calls l1 ++ calls l2.
Proof.
  induction l1 as [|[i|[m|m n|c a kw] r] l1 IH]; cbn [calls app];
    rewrite ?IH; reflexivity.
Qed.

Lemma call_names_app l1 l2 :
  call_names (l1 ++ l2) = call_names l1 ++ call_names l2.
Proof. unfold call_names. rewrite calls_app. apply map_app. Qed.

(** Case analysis on a run given as a hypothesis [R : run_of a r s]. *)
Ltac shape_cases a R :=
  let n := fresh "n" in
  let e := fresh "e" in
  let l := fresh "l" in
  let Hf := fresh "Hf" in
  destruct a;
  destruct R as [|n e l Hf];
  [ unfold script; cbn [a_os a_boto3 a_sagemaker a_MXNet a_get_execution_role
                        a_gluon a_session a_role a_train a_test a_inputs
                        a_model a_fitted a_endpoint]
  | fail_cases n Hf 20 ].

(** From any kernel, the appended log also records the oracle's own
    answers, each given after all that came before. *)
Lemma run_from_faithful sdk k :
  exists a s,
    run_of a (fst (run_from sdk k)) s /\
    log (snd (run_from sdk k)) = log k ++ s /\
    faithful sdk (log k) s.
Proof.
  destruct k as [g l0].
  change (wp (run_cells 0 (notebook sdk)) (Kernel g l0)
            (fun r k' => exists a s,
                           run_of a r s /\ log k' = l0 ++ s /\ faithful sdk l0 s)).
  repeat wp_step_from.
  all: cbn beta iota delta [globals log] in *.
  all: eexists (Answers _ _ _ _ _ _ _ _ _ _ _ _ _ _), _.
  all: refine (conj _ (conj _ _));
    [ | rewrite <- ?app_assoc; cbn [app]; reflexivity | ].
  all: first
    [ refine (run_completes _)
    | lazymatch goal with
      | |- run_of _ _ ?L =>
          let n := eval cbv in (pred (length L)) in
          refine (run_fails _ n _ _ _); reflexivity
      | |- faithful _ _ _ => cbn [faithful]; repeat split; assumption
      end ].
  Unshelve. all: exact VNone.
Qed.

(** A script, whole or cut, passes on its own answers and nothing else. *)
Lemma script_threads_own_answers a r s :
  run_of a r s ->
  threads_own_answers s /\
  call_names s `prefix_of` pipeline /\
  (r = Ok tt -> call_names s = pipeline).
Proof.
  intros R. unfold threads_own_answers.
  shape_cases a R.
  all: split; [ | split; [ eexists; reflexivity
                         | first [ discriminate | reflexivity ] ] ].
  all: cbn; repeat split; repeat constructor.
  all: repeat eexists.
Qed.

(** X2. Running all cells again in the kernel a completed run left behind
    goes through the same script once more, from [Session] on, with the
    SDK answering afresh after the whole first run.  Nothing the first run
    created is reused: every call of the second run is made on, and given,
    literals and answers of the second run only (the second session, role,
    upload and estimator), and a second run that completes has fitted and
    deployed a second time. *)
Theorem rerun_repeats_the_pipeline sdk :
  outcome sdk = Ok tt ->
  exists a1 a2 s,
    trace sdk = script a1 /\
    log (snd (rerun sdk)) = trace sdk ++ s /\
    run_of a2 (fst (rerun sdk)) s /\
    faithful sdk (trace sdk) s /\
    threads_own_answers s /\
    call_names s `prefix_of` pipeline /\
    call_names (log (snd (rerun sdk))) = pipeline ++ call_names s /\
    (fst (rerun sdk) = Ok tt -> s = script a2 /\ call_names s = pipeline).
Proof.
  intros Hok.
  destruct (run_shape sdk) as [a1 R1].
  assert (Hfirst : trace sdk = script a1).
  { rewrite Hok in R1. inversion R1. reflexivity. }
  destruct (run_from_faithful sdk (snd (run_all sdk))) as (a2 & s & R & Hlog & Hf).
  fold (rerun sdk) in R, Hlog. fold (trace sdk) in Hlog, Hf.
  destruct (script_threads_own_answers _ _ _ R) as (Hown & Hpre & Hall).
  exists a1, a2, s.
  split; [ exact Hfirst | ]. split; [ exact Hlog | ]. split; [ exact R | ].
  split; [ exact Hf | ]. split; [ exact Hown | ]. split; [ exact Hpre | ].
  split.
  - rewrite Hlog, call_names_app, Hfirst. reflexivity.
  - intros Hok2. split; [ | exact (Hall Hok2) ].
    rewrite Hok2 in R. inversion R. reflexivity.
Qed.

Lemma rerun_repeats_the_pipeline_witness :
  outcome sdk_ok = Ok tt /\
  exists a1 a2 s,
    trace sdk_ok = script a1 /\
    log (snd (rerun sdk_ok)) = trace sdk_ok ++ s /\
    run_of a2 (fst (rerun sdk_ok)) s /\
    faithful sdk_ok (trace sdk_ok) s /\
    threads_own_answers s /\
    call_names s `prefix_of` pipeline /\
    call_names (log (snd (rerun sdk_ok))) = pipeline ++ call_names s /\
    (fst (rerun sdk_ok) = Ok tt -> s = script a2 /\ call_names s = pipeline).
Proof.
  split; [ vm_compute; reflexivity | ].
  apply (rerun_repeats_the_pipeline sdk_ok). vm_compute; reflexivity.
Defined.

Example rerun_ok :
  call_names (log (snd (rerun sdk_ok))) = pipeline ++ pipeline.
Proof. vm_compute; reflexivity. Qed.





(** X5. In every run, the [role] passed to the [MXNet] constructor is the
    value the one call of [get_execution_role] returned. *)
Theorem estimator_role_is_execution_role sdk :
  Forall (fun m =>
            exists g r,
              calls_to "get_execution_role" (trace sdk) = [g] /\
              inv_args g = [] /\ inv_kwargs g = [] /\
              inv_result g = Ok r /\
              kwarg "role" (inv_kwargs m) = Some r)
         (calls_to "MXNet" (trace sdk)).
Proof.
  run_cases sdk.
  all: cbn; repeat constructor.
  all: repeat eexists.
Qed.

(** X6. All six imports come before the first call: when an import
    raises, the run has made no SDK call at all and has started no cell
    but the first. *)
Theorem failed_import_makes_no_call sdk :
  forall i o e,
    trace sdk !! i = Some (Ev o (Raise e)) ->
    is_import o = true ->
    calls (trace sdk) = [] /\ started (trace sdk) = [0].
Proof.
  run_cases sdk.
  all: intros i o x Hi Himp.
  all: lookup_cases i Hi 20.
  all: first [ discriminate Himp | split; reflexivity ].
Qed.

Lemma failed_import_makes_no_call_witness :
  (trace (sdk_fail 3 quota) !! 3 = Some (Ev (Import "sagemaker") (Raise quota)) /\
   is_import (Import "sagemaker") = true) /\
  (calls (trace (sdk_fail 3 quota)) = [] /\ started (trace (sdk_fail 3 quota)) = [0]).
Proof.
  assert (Hat : trace (sdk_fail 3 quota) !! 3 =
                Some (Ev (Import "sagemaker") (Raise quota)))
    by (vm_compute; reflexivity).
  split; [ split; [ exact Hat | reflexivity ] | ].
  exact (failed_import_makes_no_call (sdk_fail 3 quota) 3 _ quota Hat eq_refl).
Defined.

(** X7. No endpoint without a finished training job: [deploy] is called
    only in runs where the one call of [fit] returned, and when [fit]
    raises the run ends with that exception and [deploy] is not called. *)
Theorem no_deploy_unless_fit_returned sdk :
  (forall d, d ∈ calls_to "deploy" (trace sdk) ->
             exists f v, calls_to "fit" (trace sdk) = [f] /\ inv_result f = Ok v) /\
  (forall f e, f ∈ calls_to "fit" (trace sdk) -> inv_result f = Raise e ->
               calls_to "deploy" (trace sdk) = [] /\ outcome sdk = Raise e).
Proof.
  run_cases sdk.
  all: split; [ intros d Hd | intros f x Hf Hx ].
  all: cbn in *.
  all: try (apply elem_of_nil in Hd; contradiction).
  all: try (apply elem_of_nil in Hf; contradiction).
  all: try (repeat eexists; fail).
  all: apply list_elem_of_singleton in Hf; subst f; cbn in Hx.
  all: first [ discriminate Hx | injection Hx as <-; split; reflexivity ].
Qed.

Lemma no_deploy_unless_fit_returned_witness :
  (deploy_ok ∈ calls_to "deploy" (trace sdk_ok) /\
   exists f v, calls_to "fit" (trace sdk_ok) = [f] /\ inv_result f = Ok v) /\
  (fit_failed ∈ calls_to "fit" (trace (sdk_fail 17 quota)) /\
   inv_result fit_failed = Raise quota /\
   calls_to "deploy" (trace (sdk_fail 17 quota)) = [] /\
   outcome (sdk_fail 17 quota) = Raise quota).
Proof.
  assert (Hd : deploy_ok ∈ calls_to "deploy" (trace sdk_ok))
    by (vm_compute; constructor).
  assert (Hf : fit_failed ∈ calls_to "fit" (trace (sdk_fail 17 quota)))
    by (vm_compute; constructor).
  split.
  - split; [ exact Hd | ].
    exact (proj1 (no_deploy_unless_fit_returned sdk_ok) deploy_ok Hd).
  - split; [ exact Hf | ]. split; [ reflexivity | ].
    exact (proj2 (no_deploy_unless_fit_returned (sdk_fail 17 quota))
             fit_failed quota Hf eq_refl).
Defined.

(** X8. At the end of a run on a fresh kernel, each of the four assigned
    names is bound exactly when its call returned, and then to what the
    call returned: [sagemaker_session] to the session, [role] to the
    execution role, [inputs] to the uploaded location, [model] to the
    estimator.  A call that raised leaves its name unbound. *)
Theorem assigned_names_hold_results sdk :
  Forall (fun fx =>
            forall v,
              namespace sdk !! fx.2 = Some v <->
              exists c, c ∈ calls_to fx.1 (trace sdk) /\ inv_result c = Ok v)
         assigned.
Proof.
  unfold trace, namespace.
  apply (wp_run_all sdk (fun _ k =>
    Forall (fun fx =>
              forall v,
                globals k !! fx.2 = Some v <->
                exists c, c ∈ calls_to fx.1 (log k) /\ inv_result c = Ok v)
           assigned)).
  unfold fresh_kernel.
  repeat wp_step.
  all: cbn beta iota delta [globals log app].
  all: repeat match goal with
              | H : _ = Ok _ |- _ => clear H
              | H : _ = Raise _ |- _ => clear H
              end.
  all: repeat apply Forall_cons_2; try apply Forall_nil_2.
  all: intros x; cbn [fst snd calls_to callee_name]; split.
  all: try (intros Hl; vm_compute in Hl;
            first [ discriminate Hl
                  | injection Hl as <-; eexists; split;
                    [ cbn; constructor | reflexivity ] ]).
  all: intros (c & Hc & Hr); vm_compute in Hc.
  all: first
    [ apply elem_of_nil in Hc; contradiction
    | apply list_elem_of_singleton in Hc; subst c;
      first [ discriminate Hr | injection Hr as <-; vm_compute; reflexivity ] ].
Qed.

Lemma assigned_names_hold_results_witness :
  namespace sdk_ok !! "inputs" = Some (VObj 13) /\
  exists c, c ∈ calls_to "upload_data" (trace sdk_ok) /\ inv_result c = Ok (VObj 13).
Proof.
  assert (Hl : namespace sdk_ok !! "inputs" = Some (VObj 13))
    by (vm_compute; reflexivity).
  split; [ exact Hl | ].
  assert (H := assigned_names_hold_results sdk_ok).
  apply Forall_cons_1 in H as [_ H]. apply Forall_cons_1 in H as [_ H].
  apply Forall_cons_1 in H as [H _].
  exact (proj1 (H (VObj 13)) Hl).
Defined.

(** ** Single cells, in any kernel *)

Ltac unfold_cell :=
  cbv [cell2 cell3 cell5 cell7 cell9 expr_stmt assign call attr load store
       bind ret raise perform eval_args eval_kwargs eval_dict dict_
       str int float bool_].

(** X9. A cell run before the names it needs are bound stops at the first
    name it reads: the [fit] cell reads [model] first, the estimator cell
    reads [MXNet] first and [role] after it.  The cell raises [NameError]
    for that name, asks nothing of the SDK and binds no name. *)
Theorem unbound_name_stops_before_the_call sdk k :
  (globals k !! "model" = None ->
   stopped_with (NameError "model") k (cell7 sdk k)) /\
  (globals k !! "MXNet" = None ->
   stopped_with (NameError "MXNet") k (cell5 sdk k)) /\
  (forall c, globals k !! "MXNet" = Some c -> globals k !! "role" = None ->
             stopped_with (NameError "role") k (cell5 sdk k)).
Proof.
  unfold stopped_with, user_names_kept.
  split; [ | split ].
  - intros Hm. unfold_cell. rewrite Hm. repeat split.
  - intros Hc. unfold_cell. rewrite Hc. repeat split.
  - intros c Hc Hr. unfold_cell. rewrite Hc, Hr. repeat split.
Qed.

Lemma unbound_name_stops_before_the_call_witness :
  stopped_with (NameError "model") fresh_kernel (cell7 sdk_ok fresh_kernel) /\
  stopped_with (NameError "MXNet") fresh_kernel (cell5 sdk_ok fresh_kernel) /\
  stopped_with (NameError "role") (kernel_with "MXNet" (VObj 1))
    (cell5 sdk_ok (kernel_with "MXNet" (VObj 1))).
Proof.
  split; [ | split ].
  - apply (unbound_name_stops_before_the_call sdk_ok fresh_kernel).
    reflexivity.
  - apply (proj1 (proj2 (unbound_name_stops_before_the_call sdk_ok
                           fresh_kernel))).
    reflexivity.
  - apply (proj2 (proj2 (unbound_name_stops_before_the_call sdk_ok
                           (kernel_with "MXNet" (VObj 1)))) (VObj 1));
      vm_compute; reflexivity.
Defined.

(** X10. The dataset cell, the upload cell and the deploy cell each read
    one name first, [gluon], [sagemaker_session] and [model]; run in a
    kernel where it is not bound, each raises [NameError] for it, asks
    nothing of the SDK and binds no name. *)
Theorem cell_without_its_name_raises sdk k :
  (globals k !! "gluon" = None ->
   stopped_with (NameError "gluon") k (cell2 sdk k)) /\
  (globals k !! "sagemaker_session" = None ->
   stopped_with (NameError "sagemaker_session") k (cell3 sdk k)) /\
  (globals k !! "model" = None ->
   stopped_with (NameError "model") k (cell9 sdk k)).
Proof.
  unfold stopped_with, user_names_kept.
  split; [ | split ]; intros H; unfold_cell; rewrite H; repeat split.
Qed.

Lemma cell_without_its_name_raises_witness :
  stopped_with (NameError "gluon") fresh_kernel (cell2 sdk_ok fresh_kernel) /\
  stopped_with (NameError "sagemaker_session") fresh_kernel
    (cell3 sdk_ok fresh_kernel) /\
  stopped_with (NameError "model") fresh_kernel (cell9 sdk_ok fresh_kernel).
Proof.
  destruct (cell_without_its_name_raises sdk_ok fresh_kernel) as (H2 & H3 & H9).
  split; [ apply H2; reflexivity | ].
  split; [ apply H3; reflexivity | apply H9; reflexivity ].
Defined.


(** X12. The upload cell and the estimator cell bind their name only when
    the call returned.  If the cell ends with an exception, every name that
    is not the kernel's own is bound as before, so [inputs] or [model] keeps
    the value of an earlier execution, if any.  If it ends normally, exactly
    one operation was logged, [inputs] (for the upload cell) or [model] (for
    the estimator cell) is bound to the SDK's answer to it, and every other
    name that is not the kernel's own is bound as before. *)
Theorem assignment_cells_bind_on_success_only sdk k :
  (forall e, fst (cell3 sdk k) = Raise e -> user_names_kept k (snd (cell3 sdk k))) /\
  (forall e, fst (cell5 sdk k) = Raise e -> user_names_kept k (snd (cell5 sdk k))) /\
  (fst (cell3 sdk k) = Ok tt ->
   exists o v,
     log (snd (cell3 sdk k)) = log k ++ [Ev o (Ok v)] /\
     sdk (log k) o = Ok v /\
     globals (snd (cell3 sdk k)) !! "inputs" = Some v /\
     forall x, kernel_owned x = false -> x <> "inputs" ->
               globals (snd (cell3 sdk k)) !! x = globals k !! x) /\
  (fst (cell5 sdk k) = Ok tt ->
   exists o v,
     log (snd (cell5 sdk k)) = log k ++ [Ev o (Ok v)] /\
     sdk (log k) o = Ok v /\
     globals (snd (cell5 sdk k)) !! "model" = Some v /\
     forall x, kernel_owned x = false -> x <> "model" ->
               globals (snd (cell5 sdk k)) !! x = globals k !! x).
Proof.
  unfold user_names_kept.
  repeat split.
  all: unfold_cell.
  all: repeat match goal with
              | |- context [match ?m !! ?x with _ => _ end] =>
                  destruct (m !! x)
              | |- context [match ?r with Ok _ => _ | Raise _ => _ end] =>
                  destruct r eqn:?
              end.
  all: cbn [fst snd globals log].
  all: try (intros; reflexivity).
  all: try (intros; discriminate).
  all: intros _; eexists _, _.
  all: split; [ reflexivity | ].
  all: split; [ eassumption | ].
  all: split; [ apply lookup_insert_eq | ].
  all: intros x _ Hx; apply lookup_insert_ne; congruence.
Qed.

Lemma assignment_cells_bind_on_success_only_witness :
  (fst (cell3 (sdk_fail 0 quota) (kernel_with "sagemaker_session" (VObj 7))) =
     Raise quota /\
   user_names_kept (kernel_with "sagemaker_session" (VObj 7))
     (snd (cell3 (sdk_fail 0 quota) (kernel_with "sagemaker_session" (VObj 7))))) /\
  (fst (cell5 (sdk_fail 0 quota) kernel_for_estimator) = Raise quota /\
   user_names_kept kernel_for_estimator
     (snd (cell5 (sdk_fail 0 quota) kernel_for_estimator))) /\
  (fst (cell3 sdk_ok (kernel_with "sagemaker_session" (VObj 7))) = Ok tt /\
   exists o v,
     log (snd (cell3 sdk_ok (kernel_with "sagemaker_session" (VObj 7)))) =
       log (kernel_with "sagemaker_session" (VObj 7)) ++ [Ev o (Ok v)] /\
     sdk_ok (log (kernel_with "sagemaker_session" (VObj 7))) o = Ok v /\
     globals (snd (cell3 sdk_ok (kernel_with "sagemaker_session" (VObj 7))))
       !! "inputs" = Some v /\
     forall x, kernel_owned x = false -> x <> "inputs" ->
               globals (snd (cell3 sdk_ok (kernel_with "sagemaker_session" (VObj 7))))
                 !! x =
               globals (kernel_with "sagemaker_session" (VObj 7)) !! x) /\
  (fst (cell5 sdk_ok kernel_for_estimator) = Ok tt /\
   exists o v,
     log (snd (cell5 sdk_ok kernel_for_estimator)) =
       log kernel_for_estimator ++ [Ev o (Ok v)] /\
     sdk_ok (log kernel_for_estimator) o = Ok v /\
     globals (snd (cell5 sdk_ok kernel_for_estimator)) !! "model" = Some v /\
     forall x, kernel_owned x = false -> x <> "model" ->
               globals (snd (cell5 sdk_ok kernel_for_estimator)) !! x =
               globals kernel_for_estimator !! x).
Proof.
  assert (H3f : fst (cell3 (sdk_fail 0 quota)
                       (kernel_with "sagemaker_session" (VObj 7))) = Raise quota)
    by (vm_compute; reflexivity).
  assert (H5f : fst (cell5 (sdk_fail 0 quota) kernel_for_estimator) = Raise quota)
    by (vm_compute; reflexivity).
  assert (H3 : fst (cell3 sdk_ok (kernel_with "sagemaker_session" (VObj 7))) = Ok tt)
    by (vm_compute; reflexivity).
  assert (H5 : fst (cell5 sdk_ok kernel_for_estimator) = Ok tt)
    by (vm_compute; reflexivity).
  split; [ split; [ exact H3f | ] | split; [ split; [ exact H5f | ] | split ] ].
  - exact (proj1 (assignment_cells_bind_on_success_only (sdk_fail 0 quota)
                    (kernel_with "sagemaker_session" (VObj 7))) quota H3f).
  - exact (proj1 (proj2 (assignment_cells_bind_on_success_only (sdk_fail 0 quota)
                           kernel_for_estimator)) quota H5f).
  - split; [ exact H3 | ].
    exact (proj1 (proj2 (proj2 (assignment_cells_bind_on_success_only sdk_ok
                                  (kernel_with "sagemaker_session" (VObj 7))))) H3).
  - split; [ exact H5 | ].
    exact (proj2 (proj2 (proj2 (assignment_cells_bind_on_success_only sdk_ok
                                  kernel_for_estimator))) H5).
Defined.

(** ** What the calls are given *)

(** X13. The session is built and the execution role is asked for with no
    argument at all; the estimator is given its entry point and exactly the
    keywords [role], [train_instance_count], [train_instance_type] and
    [hyperparameters], so the session of the first cell is not handed to
    it; [fit] gets no keyword and [deploy] exactly [initial_instance_count]
    and [instance_type]. *)
Theorem call_signatures sdk :
  Forall (fun c => inv_args c = [] /\ inv_kwargs c = [])
         (calls_to "Session" (trace sdk) ++
          calls_to "get_execution_role" (trace sdk)) /\
  Forall (fun m =>
            length (inv_args m) = 1 /\
            map fst (inv_kwargs m) =
              ["role"; "train_instance_count"; "train_instance_type";
               "hyperparameters"] /\
            kwarg "sagemaker_session" (inv_kwargs m) = None)
         (calls_to "MXNet" (trace sdk)) /\
  Forall (fun f => length (inv_args f) = 1 /\ inv_kwargs f = [])
         (calls_to "fit" (trace sdk)) /\
  Forall (fun d =>
            inv_args d = [] /\
            map fst (inv_kwargs d) = ["initial_instance_count"; "instance_type"])
         (calls_to "deploy" (trace sdk)).
Proof.
  run_cases sdk.
  all: cbn; repeat constructor.
Qed.

(** X14. The values of the hyperparameters: in every run the estimator is
    given batch_size 100, epochs 5, learning_rate 0.1, momentum 0.9 and
    log_interval 100, in this order. *)
Theorem hyperparameter_values sdk :
  Forall (fun m =>
            kwarg "hyperparameters" (inv_kwargs m) =
            Some (VDict [("batch_size", VInt 100);
                         ("epochs", VInt 5);
                         ("learning_rate", VFloat 0.1);
                         ("momentum", VFloat 0.9);
                         ("log_interval", VInt 100)]))
         (calls_to "MXNet" (trace sdk)).
Proof.
  run_cases sdk.
  all: cbn; repeat constructor.
Qed.
